(** * Viewport: verification of source/core/objects/cameras/Viewport.js

    The file embeds the Viewport object of the editor's camera code and the
    few pieces of three.js it calls (Vector2, Vector4, the renderer's
    setViewport and setScissor), and proves the properties of the
    specification about it.

    Numbers.  Module [Viewport] reads a JavaScript number as an exact
    rational ([Q]): every quantity the object stores or receives is a
    finite number and [+], [-], [*] are exact.  Rounding of binary64
    arithmetic, signed zeros and overflow are outside that reading.  A
    division whose divisor is zero yields Infinity or NaN in JavaScript;
    the exact reading has no value for those and returns [None] there.  The
    comparison [===] on numbers is numeric equality ([Qeq_bool]).

    Module [Binary64] gives isInside, getNormalized and enable once more
    with the operators of the code, on primitive binary64 floats.  A
    statement that rests on a law of exact arithmetic (regrouping a sum,
    cancelling a term) need not hold of the rounded results; the last
    section evaluates two such statements there. *)

From Stdlib Require Import QArith Lqa Floats.
From stdpp Require Import gmap strings list fin_maps.

Local Open Scope Q_scope.
Set Warnings "-register-all,-inexact-float".

(** ** JavaScript values and operators *)

Module JS.

(** The values that occur in the serialized record of a viewport. *)
Inductive Value :=
| undefined
| Number (q : Q)
| Array (a : list Value).

(** [a > b] and [a < b] on numbers. *)
Definition lt (a b : Q) : bool := negb (Qle_bool b a).
Definition gt (a b : Q) : bool := lt b a.

(** [a === b] on numbers. *)
Definition strict_eq (a b : Q) : bool := Qeq_bool a b.

(** [a / b] as an exact quotient; [None] when [b] is zero, where the code
    has Infinity or NaN. *)
Definition div (a b : Q) : option Q :=
  if Qeq_bool b 0 then None else Some (a / b).

(** [data.key] on a plain object: a missing property reads [undefined]. *)
Definition get (data : gmap string Value) (key : string) : Value :=
  default undefined (data !! key).

(** How a call that mutates an object ends.  [TypeError]: the call throws
    (an index is read from [undefined]).  [NotANumber]: the call returns,
    but a write stored a value that is not a number ([undefined] for a
    missing property or element); a state has no value for such a field
    and shows there what the field held before, the later writes of the
    call are in the state. *)
Inductive Completion := Returned | TypeError | NotANumber.

(** A method body over a mutable object of type [S]: the state after the
    call, also when the call throws. *)
Definition Step (S : Type) : Type := S -> Completion * S.

(** [f; g]: a throw in [f] ends the call, a write of a value that is not a
    number does not. *)
Definition seq {S : Type} (f g : Step S) : Step S :=
  fun s => match f s with
           | (Returned, s') => g s'
           | (TypeError, s') => (TypeError, s')
           | (NotANumber, s') =>
               match g s' with
               | (TypeError, s'') => (TypeError, s'')
               | (_, s'') => (NotANumber, s'')
               end
           end.

(** Runs [f] on the part of the object that [proj] reads and [upd] writes. *)
Definition on {S T : Type} (proj : S -> T) (upd : T -> S -> S) (f : Step T) : Step S :=
  fun s => let '(c, t') := f (proj s) in (c, upd t' s).

End JS.

Declare Scope js_scope.
Delimit Scope js_scope with js.
Notation "f ;; g" := (JS.seq f g)
  (at level 100, g at level 200, right associativity) : js_scope.

Local Open Scope js_scope.

(** ** The parts of three.js that the viewport calls

    three.js is a library the repository depends on; these definitions
    follow its Vector2, Vector4 and WebGLRenderer. *)

Module THREE.

Module Vector2.

Record t := mk { x : Q; y : Q }.

(** [new THREE.Vector2(x, y)]: a missing argument is 0. *)
Definition new (x y : option Q) : t := mk (default 0 x) (default 0 y).

(** [v.set(x, y)] overwrites both components. *)
Definition set (x y : Q) (v : t) : t := mk x y.

(** [v.toArray()] is the fresh array [[v.x, v.y]]. *)
Definition toArray (v : t) : JS.Value :=
  JS.Array [JS.Number (x v); JS.Number (y v)].

(** [array[i]]: reading an index of [undefined] throws, reading one of a
    number or past the end of an array is [undefined]. *)
Definition index (array : JS.Value) (i : nat) : option JS.Value :=
  match array with
  | JS.undefined => None
  | JS.Number _ => Some JS.undefined
  | JS.Array a => Some (default JS.undefined (a !! i))
  end.

(** One assignment [this.c = array[i]] of fromArray; reading the index
    throws before anything is written. *)
Definition assign (upd : Q -> t -> t) (array : JS.Value) (i : nat) : JS.Step t :=
  fun v => match index array i with
           | None => (JS.TypeError, v)
           | Some (JS.Number q) => (JS.Returned, upd q v)
           | Some _ => (JS.NotANumber, v)
           end.

(** [v.fromArray(array)]: [this.x = array[0]; this.y = array[1]]. *)
Definition fromArray (array : JS.Value) : JS.Step t :=
  assign (fun q v => mk q (y v)) array 0 ;;
  assign (fun q v => mk (x v) q) array 1.

End Vector2.

Module Vector4.

Record t := mk { x : Q; y : Q; z : Q; w : Q }.

(** [new THREE.Vector4(x, y, z, w)]: a missing [x], [y] or [z] is 0 and a
    missing [w] is 1. *)
Definition new (x y z w : option Q) : t :=
  mk (default 0 x) (default 0 y) (default 0 z) (default 1 w).

End Vector4.

(** The canvas a renderer draws to. *)
Record Canvas := { width : Q; height : Q }.

(** The state of a WebGLRenderer that the viewport reads and writes: its
    canvas, its viewport rectangle and its scissor rectangle. *)
Record WebGLRenderer := {
  domElement : Canvas;
  _viewport : Vector4.t;
  _scissor : Vector4.t
}.

(** [renderer.setViewport(x, y, width, height)] *)
Definition setViewport (x y width height : Q) (renderer : WebGLRenderer) : WebGLRenderer :=
  {| domElement := domElement renderer;
     _viewport := Vector4.mk x y width height;
     _scissor := _scissor renderer |}.

(** [renderer.setScissor(x, y, width, height)] *)
Definition setScissor (x y width height : Q) (renderer : WebGLRenderer) : WebGLRenderer :=
  {| domElement := domElement renderer;
     _viewport := _viewport renderer;
     _scissor := Vector4.mk x y width height |}.

End THREE.

(** The pointer as the editor passes it: [mouse.position] is a Vector2 in
    canvas coordinates. *)
Record Mouse := { position : THREE.Vector2.t }.

(** ** Viewport.js *)

Module Viewport.

Import THREE.

(** The object built by [function Viewport(mode)]. *)
Record t := mk {
  offset : Vector2.t;
  size : Vector2.t;
  mode : Q;
  anchor : Q;
  viewport : Vector4.t
}.

Definition RELATIVE : Q := 200.
Definition ABSOLUTE : Q := 201.

Definition TOP_LEFT : Q := 301.
Definition TOP_RIGHT : Q := 302.
Definition BOTTOM_LEFT : Q := 303.
Definition BOTTOM_RIGHT : Q := 304.

(** [new Viewport(mode)]; [None] is a missing (undefined) argument. *)
Definition new (mode : option Q) : t :=
  {| offset := Vector2.new (Some 0) (Some 0);
     size := Vector2.new (Some 1) (Some 1);
     mode := match mode with Some m => m | None => RELATIVE end;
     anchor := TOP_LEFT;
     viewport := Vector4.new None None None None |}.

(** [update()]: the body is empty. *)
Definition update (this : t) : t := this.

Definition getAspectRatio (this : t) : option Q :=
  JS.div this.(size).(Vector2.x) this.(size).(Vector2.y).

Definition isInside (this : t) (canvas : Canvas) (mouse : Mouse) : bool :=
  let width := canvas.(width) in
  let height := canvas.(height) in
  let '(offset, viewport) :=
    if JS.strict_eq this.(mode) RELATIVE
    then (Vector2.new (Some (this.(offset).(Vector2.x) * width))
                      (Some (this.(offset).(Vector2.y) * height)),
          Vector2.new (Some (this.(size).(Vector2.x) * width))
                      (Some (this.(size).(Vector2.y) * height)))
    else (this.(offset), this.(size)) in
  if JS.strict_eq this.(anchor) TOP_LEFT then
    JS.gt mouse.(position).(Vector2.x) offset.(Vector2.x) &&
    JS.lt mouse.(position).(Vector2.x) (offset.(Vector2.x) + viewport.(Vector2.x)) &&
    JS.gt mouse.(position).(Vector2.y) offset.(Vector2.y) &&
    JS.lt mouse.(position).(Vector2.y) (offset.(Vector2.y) + viewport.(Vector2.y))
  else if JS.strict_eq this.(anchor) TOP_RIGHT then
    JS.gt mouse.(position).(Vector2.x) (width - viewport.(Vector2.x) - offset.(Vector2.x)) &&
    JS.lt mouse.(position).(Vector2.x) (width - offset.(Vector2.x)) &&
    JS.gt mouse.(position).(Vector2.y) offset.(Vector2.y) &&
    JS.lt mouse.(position).(Vector2.y) (offset.(Vector2.y) + viewport.(Vector2.y))
  else if JS.strict_eq this.(anchor) BOTTOM_LEFT then
    JS.gt mouse.(position).(Vector2.x) offset.(Vector2.x) &&
    JS.lt mouse.(position).(Vector2.x) (offset.(Vector2.x) + viewport.(Vector2.x)) &&
    JS.gt mouse.(position).(Vector2.y) (height - offset.(Vector2.y) - viewport.(Vector2.y)) &&
    JS.lt mouse.(position).(Vector2.y) (height - offset.(Vector2.y))
  else
    JS.gt mouse.(position).(Vector2.x) (width - viewport.(Vector2.x) - offset.(Vector2.x)) &&
    JS.lt mouse.(position).(Vector2.x) (width - offset.(Vector2.x)) &&
    JS.gt mouse.(position).(Vector2.y) (height - offset.(Vector2.y) - viewport.(Vector2.y)) &&
    JS.lt mouse.(position).(Vector2.y) (height - offset.(Vector2.y)).

(** [getNormalized(canvas, mouse)].  [normalized] is the vector of the
    enclosing closure, shared by all calls; the result is its content after
    [normalized.set], which is what the returned reference shows.  [None]
    when a component is not a finite number. *)
Definition getNormalized (normalized : Vector2.t) (this : t) (canvas : Canvas) (mouse : Mouse)
  : option Vector2.t :=
  let width := canvas.(width) in
  let height := canvas.(height) in
  let '(offset, viewport) :=
    if JS.strict_eq this.(mode) RELATIVE
    then (Vector2.new (Some (this.(offset).(Vector2.x) * width))
                      (Some (this.(offset).(Vector2.y) * height)),
          Vector2.new (Some (this.(size).(Vector2.x) * width))
                      (Some (this.(size).(Vector2.y) * height)))
    else (this.(offset), this.(size)) in
  if JS.strict_eq this.(anchor) TOP_LEFT then
    let x := mouse.(position).(Vector2.x) - viewport.(Vector2.x) - offset.(Vector2.x) in
    let y := mouse.(position).(Vector2.y) - offset.(Vector2.y) in
    a ← JS.div x viewport.(Vector2.x);
    b ← JS.div (- y) viewport.(Vector2.y);
    Some (Vector2.set (a * 2 + 1) (b * 2 + 1) normalized)
  else if JS.strict_eq this.(anchor) TOP_RIGHT then
    let x := width - mouse.(position).(Vector2.x) - viewport.(Vector2.x) - offset.(Vector2.x) in
    let y := mouse.(position).(Vector2.y) - offset.(Vector2.y) in
    a ← JS.div (- x) viewport.(Vector2.x);
    b ← JS.div (- y) viewport.(Vector2.y);
    Some (Vector2.set (a * 2 - 1) (b * 2 + 1) normalized)
  else if JS.strict_eq this.(anchor) BOTTOM_LEFT then
    let x := mouse.(position).(Vector2.x) - viewport.(Vector2.x) - offset.(Vector2.x) in
    let y := height - mouse.(position).(Vector2.y) - offset.(Vector2.y) in
    a ← JS.div x viewport.(Vector2.x);
    b ← JS.div y viewport.(Vector2.y);
    Some (Vector2.set (a * 2 + 1) (b * 2 - 1) normalized)
  else
    let x := width - mouse.(position).(Vector2.x) - viewport.(Vector2.x) - offset.(Vector2.x) in
    let y := height - mouse.(position).(Vector2.y) - offset.(Vector2.y) in
    a ← JS.div (- x) viewport.(Vector2.x);
    b ← JS.div y viewport.(Vector2.y);
    Some (Vector2.set (a * 2 - 1) (b * 2 - 1) normalized).

(** [enable(renderer)]: the renderer after the two calls. *)
Definition enable (this : t) (renderer : WebGLRenderer) : WebGLRenderer :=
  let width := renderer.(domElement).(width) in
  let height := renderer.(domElement).(height) in
  let '(offset, viewport) :=
    if JS.strict_eq this.(mode) RELATIVE
    then (Vector2.new (Some (this.(offset).(Vector2.x) * width))
                      (Some (this.(offset).(Vector2.y) * height)),
          Vector2.new (Some (this.(size).(Vector2.x) * width))
                      (Some (this.(size).(Vector2.y) * height)))
    else (this.(offset), this.(size)) in
  if JS.strict_eq this.(anchor) BOTTOM_LEFT then
    setScissor offset.(Vector2.x) offset.(Vector2.y) viewport.(Vector2.x) viewport.(Vector2.y)
      (setViewport offset.(Vector2.x) offset.(Vector2.y) viewport.(Vector2.x) viewport.(Vector2.y)
         renderer)
  else if JS.strict_eq this.(anchor) BOTTOM_RIGHT then
    let x := width - viewport.(Vector2.x) - offset.(Vector2.x) in
    setScissor x offset.(Vector2.y) viewport.(Vector2.x) viewport.(Vector2.y)
      (setViewport x offset.(Vector2.y) viewport.(Vector2.x) viewport.(Vector2.y) renderer)
  else if JS.strict_eq this.(anchor) TOP_LEFT then
    let y := height - viewport.(Vector2.y) - offset.(Vector2.y) in
    setScissor offset.(Vector2.x) y viewport.(Vector2.x) viewport.(Vector2.y)
      (setViewport offset.(Vector2.x) y viewport.(Vector2.x) viewport.(Vector2.y) renderer)
  else
    let x := width - viewport.(Vector2.x) - offset.(Vector2.x) in
    let y := height - viewport.(Vector2.y) - offset.(Vector2.y) in
    setScissor x y viewport.(Vector2.x) viewport.(Vector2.y)
      (setViewport x y viewport.(Vector2.x) viewport.(Vector2.y) renderer).

(** [toJSON()]: the object literal, as a map from property names. *)
Definition toJSON (this : t) : gmap string JS.Value :=
  list_to_map
    [ ("offset", Vector2.toArray this.(offset));
      ("size", Vector2.toArray this.(size));
      ("mode", JS.Number this.(mode));
      ("anchor", JS.Number this.(anchor)) ].

(** The writes of fromJSON to the fields of [this]. *)
Definition set_offset (v : Vector2.t) (this : t) : t :=
  mk v this.(size) this.(mode) this.(anchor) this.(viewport).
Definition set_size (v : Vector2.t) (this : t) : t :=
  mk this.(offset) v this.(mode) this.(anchor) this.(viewport).
Definition set_mode (q : Q) (this : t) : t :=
  mk this.(offset) this.(size) q this.(anchor) this.(viewport).
Definition set_anchor (q : Q) (this : t) : t :=
  mk this.(offset) this.(size) this.(mode) q this.(viewport).

(** [this.f = value] for a field that holds a number. *)
Definition assign (upd : Q -> t -> t) (value : JS.Value) : JS.Step t :=
  fun this => match value with
              | JS.Number q => (JS.Returned, upd q this)
              | _ => (JS.NotANumber, this)
              end.

Definition fromJSON (data : gmap string JS.Value) : JS.Step t :=
  JS.on offset set_offset (Vector2.fromArray (JS.get data "offset")) ;;
  JS.on size set_size (Vector2.fromArray (JS.get data "size")) ;;
  assign set_mode (JS.get data "mode") ;;
  assign set_anchor (JS.get data "anchor").

End Viewport.

(** ** isInside, getNormalized and enable in binary64

    The bodies of the three methods that compute, with the operators of the
    code: [+], [-], [*] and [/] round to binary64 and the comparisons are
    those of IEEE 754, as the primitive floats have them.  A decimal
    constant stands for the nearest binary64 number, as in JavaScript. *)

Module Binary64.

Local Open Scope float_scope.

Record Vector2 := vector2 { x : float; y : float }.

(** The arguments that enable passes to setViewport and to setScissor. *)
Record Rectangle := rectangle { left : float; bottom : float; w : float; h : float }.

Record Canvas := { width : float; height : float }.

(** The fields of a viewport that the three methods read. *)
Record Viewport := {
  offset : Vector2;
  size : Vector2;
  mode : float;
  anchor : float
}.

Definition RELATIVE : float := 200.
Definition ABSOLUTE : float := 201.

Definition TOP_LEFT : float := 301.
Definition TOP_RIGHT : float := 302.
Definition BOTTOM_LEFT : float := 303.
Definition BOTTOM_RIGHT : float := 304.

(** [a > b], [a < b] and [a === b] on numbers. *)
Definition gt (a b : float) : bool := PrimFloat.ltb b a.
Definition lt (a b : float) : bool := PrimFloat.ltb a b.
Definition strict_eq (a b : float) : bool := PrimFloat.eqb a b.

Definition isInside (this : Viewport) (canvas : Canvas) (position : Vector2) : bool :=
  let width := canvas.(width) in
  let height := canvas.(height) in
  let '(offset, viewport) :=
    if strict_eq this.(mode) RELATIVE
    then (vector2 (this.(offset).(x) * width) (this.(offset).(y) * height),
          vector2 (this.(size).(x) * width) (this.(size).(y) * height))
    else (this.(offset), this.(size)) in
  if strict_eq this.(anchor) TOP_LEFT then
    gt position.(x) offset.(x) &&
    lt position.(x) (offset.(x) + viewport.(x)) &&
    gt position.(y) offset.(y) &&
    lt position.(y) (offset.(y) + viewport.(y))
  else if strict_eq this.(anchor) TOP_RIGHT then
    gt position.(x) (width - viewport.(x) - offset.(x)) &&
    lt position.(x) (width - offset.(x)) &&
    gt position.(y) offset.(y) &&
    lt position.(y) (offset.(y) + viewport.(y))
  else if strict_eq this.(anchor) BOTTOM_LEFT then
    gt position.(x) offset.(x) &&
    lt position.(x) (offset.(x) + viewport.(x)) &&
    gt position.(y) (height - offset.(y) - viewport.(y)) &&
    lt position.(y) (height - offset.(y))
  else
    gt position.(x) (width - viewport.(x) - offset.(x)) &&
    lt position.(x) (width - offset.(x)) &&
    gt position.(y) (height - offset.(y) - viewport.(y)) &&
    lt position.(y) (height - offset.(y)).

(** The two numbers that getNormalized stores in the shared vector. *)
Definition getNormalized (this : Viewport) (canvas : Canvas) (position : Vector2) : Vector2 :=
  let width := canvas.(width) in
  let height := canvas.(height) in
  let '(offset, viewport) :=
    if strict_eq this.(mode) RELATIVE
    then (vector2 (this.(offset).(x) * width) (this.(offset).(y) * height),
          vector2 (this.(size).(x) * width) (this.(size).(y) * height))
    else (this.(offset), this.(size)) in
  if strict_eq this.(anchor) TOP_LEFT then
    let x' := position.(x) - viewport.(x) - offset.(x) in
    let y' := position.(y) - offset.(y) in
    vector2 ((x' / viewport.(x)) * 2 + 1) (((- y') / viewport.(y)) * 2 + 1)
  else if strict_eq this.(anchor) TOP_RIGHT then
    let x' := width - position.(x) - viewport.(x) - offset.(x) in
    let y' := position.(y) - offset.(y) in
    vector2 (((- x') / viewport.(x)) * 2 - 1) (((- y') / viewport.(y)) * 2 + 1)
  else if strict_eq this.(anchor) BOTTOM_LEFT then
    let x' := position.(x) - viewport.(x) - offset.(x) in
    let y' := height - position.(y) - offset.(y) in
    vector2 ((x' / viewport.(x)) * 2 + 1) ((y' / viewport.(y)) * 2 - 1)
  else
    let x' := width - position.(x) - viewport.(x) - offset.(x) in
    let y' := height - position.(y) - offset.(y) in
    vector2 (((- x') / viewport.(x)) * 2 - 1) ((y' / viewport.(y)) * 2 - 1).

(** The rectangle that enable passes to both calls. *)
Definition enable (this : Viewport) (canvas : Canvas) : Rectangle :=
  let width := canvas.(width) in
  let height := canvas.(height) in
  let '(offset, viewport) :=
    if strict_eq this.(mode) RELATIVE
    then (vector2 (this.(offset).(x) * width) (this.(offset).(y) * height),
          vector2 (this.(size).(x) * width) (this.(size).(y) * height))
    else (this.(offset), this.(size)) in
  if strict_eq this.(anchor) BOTTOM_LEFT then
    rectangle offset.(x) offset.(y) viewport.(x) viewport.(y)
  else if strict_eq this.(anchor) BOTTOM_RIGHT then
    let x' := width - viewport.(x) - offset.(x) in
    rectangle x' offset.(y) viewport.(x) viewport.(y)
  else if strict_eq this.(anchor) TOP_LEFT then
    let y' := height - viewport.(y) - offset.(y) in
    rectangle offset.(x) y' viewport.(x) viewport.(y)
  else
    let x' := width - viewport.(x) - offset.(x) in
    let y' := height - viewport.(y) - offset.(y) in
    rectangle x' y' viewport.(x) viewport.(y).

(** The effective size: the size scaled by the surface in RELATIVE mode,
    the size itself otherwise. *)
Definition effectiveSize (this : Viewport) (canvas : Canvas) : Vector2 :=
  if strict_eq this.(mode) RELATIVE
  then vector2 (this.(size).(x) * canvas.(width)) (this.(size).(y) * canvas.(height))
  else this.(size).

(** A binary64 datum that is NaN or an infinity. *)
Definition not_finite (s : spec_float) : Prop :=
  s = S754_nan \/ exists sign : bool, s = S754_infinity sign.

End Binary64.

(** ** The vocabulary of the specification *)

Module Spec.

Import THREE.

(** The effective offset of the specification's resolveRect: the offset
    scaled by the surface in RELATIVE mode, the offset itself otherwise. *)
Definition effectiveOffset (this : Viewport.t) (width height : Q) : Vector2.t :=
  if Qeq_dec (Viewport.mode this) Viewport.RELATIVE
  then Vector2.mk (Vector2.x (Viewport.offset this) * width)
                  (Vector2.y (Viewport.offset this) * height)
  else Viewport.offset this.

(** The effective size of the specification's resolveRect. *)
Definition effectiveSize (this : Viewport.t) (width height : Q) : Vector2.t :=
  if Qeq_dec (Viewport.mode this) Viewport.RELATIVE
  then Vector2.mk (Vector2.x (Viewport.size this) * width)
                  (Vector2.y (Viewport.size this) * height)
  else Viewport.size this.

(** The anchor field holds one of the four enumerated values. *)
Definition enumerated_anchor (this : Viewport.t) : Prop :=
  Viewport.anchor this == Viewport.TOP_LEFT \/
  Viewport.anchor this == Viewport.TOP_RIGHT \/
  Viewport.anchor this == Viewport.BOTTOM_LEFT \/
  Viewport.anchor this == Viewport.BOTTOM_RIGHT.

(** A step that leaves the viewport field of the object as it was, however
    the step ends. *)
Definition keeps_viewport (f : JS.Step Viewport.t) : Prop :=
  forall this, Viewport.viewport (snd (f this)) = Viewport.viewport this.

(** The ABSOLUTE viewport that a RELATIVE one stands for on a surface of
    [width] by [height]: offset and size scaled to pixels, the other fields
    kept. *)
Definition in_pixels (this : Viewport.t) (width height : Q) : Viewport.t :=
  Viewport.mk
    (Vector2.mk (Vector2.x (Viewport.offset this) * width)
                (Vector2.y (Viewport.offset this) * height))
    (Vector2.mk (Vector2.x (Viewport.size this) * width)
                (Vector2.y (Viewport.size this) * height))
    Viewport.ABSOLUTE (Viewport.anchor this) (Viewport.viewport this).

(** Two records hold the same values under the four property names that
    fromJSON reads. *)
Definition same_properties (data data' : gmap string JS.Value) : Prop :=
  data !! "offset" = data' !! "offset" /\
  data !! "size" = data' !! "size" /\
  data !! "mode" = data' !! "mode" /\
  data !! "anchor" = data' !! "anchor".

End Spec.

(** ** Lemmas on the operators *)

Import THREE.

Lemma lt_true (a b : Q) : JS.lt a b = true <-> a < b.
Proof.
  unfold JS.lt. rewrite negb_true_iff, <- not_true_iff_false, Qle_bool_iff.
  split; [apply Qnot_le_lt | apply Qlt_not_le].
Qed.

Lemma gt_true (a b : Q) : JS.gt a b = true <-> b < a.
Proof. apply lt_true. Qed.

Lemma strict_eq_true (a b : Q) : JS.strict_eq a b = true <-> a == b.
Proof. apply Qeq_bool_iff. Qed.

Lemma strict_eq_false (a b : Q) : JS.strict_eq a b = false <-> ~ a == b.
Proof. rewrite <- strict_eq_true. symmetry. apply not_true_iff_false. Qed.

Lemma strict_eq_compat (a b c : Q) : a == b -> JS.strict_eq a c = JS.strict_eq b c.
Proof.
  intros Hab. apply eq_iff_eq_true. rewrite !strict_eq_true.
  split; intros H; [rewrite <- Hab | rewrite Hab]; exact H.
Qed.

(** The conjunction of the four comparisons of isInside. *)
Lemma and4_true (a b c d : bool) :
  a && b && c && d = true <-> (a = true /\ b = true) /\ (c = true /\ d = true).
Proof. rewrite !andb_true_iff. tauto. Qed.

(** The mode test of the code agrees with the specification's resolveRect. *)
Lemma resolve_mode (this : Viewport.t) (width height : Q) :
  (if JS.strict_eq (Viewport.mode this) Viewport.RELATIVE
   then (Vector2.new (Some (Vector2.x (Viewport.offset this) * width))
                     (Some (Vector2.y (Viewport.offset this) * height)),
         Vector2.new (Some (Vector2.x (Viewport.size this) * width))
                     (Some (Vector2.y (Viewport.size this) * height)))
   else (Viewport.offset this, Viewport.size this))
  = (Spec.effectiveOffset this width height, Spec.effectiveSize this width height).
Proof.
  unfold Spec.effectiveOffset, Spec.effectiveSize.
  destruct (Qeq_dec _ _) as [E | E].
  - apply strict_eq_true in E. rewrite E. reflexivity.
  - apply strict_eq_false in E. rewrite E. reflexivity.
Qed.

(** Which branch of the anchor tests runs, for each enumerated value. *)
Lemma anchor_tests (a : Q) :
  (a == Viewport.TOP_LEFT ->
   JS.strict_eq a Viewport.TOP_LEFT = true /\ JS.strict_eq a Viewport.TOP_RIGHT = false /\
   JS.strict_eq a Viewport.BOTTOM_LEFT = false /\ JS.strict_eq a Viewport.BOTTOM_RIGHT = false) /\
  (a == Viewport.TOP_RIGHT ->
   JS.strict_eq a Viewport.TOP_LEFT = false /\ JS.strict_eq a Viewport.TOP_RIGHT = true /\
   JS.strict_eq a Viewport.BOTTOM_LEFT = false /\ JS.strict_eq a Viewport.BOTTOM_RIGHT = false) /\
  (a == Viewport.BOTTOM_LEFT ->
   JS.strict_eq a Viewport.TOP_LEFT = false /\ JS.strict_eq a Viewport.TOP_RIGHT = false /\
   JS.strict_eq a Viewport.BOTTOM_LEFT = true /\ JS.strict_eq a Viewport.BOTTOM_RIGHT = false) /\
  (a == Viewport.BOTTOM_RIGHT ->
   JS.strict_eq a Viewport.TOP_LEFT = false /\ JS.strict_eq a Viewport.TOP_RIGHT = false /\
   JS.strict_eq a Viewport.BOTTOM_LEFT = false /\ JS.strict_eq a Viewport.BOTTOM_RIGHT = true).
Proof.
  split; [| split; [| split]]; intros H;
    rewrite !(strict_eq_compat _ _ _ H); repeat split.
Qed.

(** ** enable *)

(** Unfolds enable and replaces the mode test by the specification's
    effective offset and size. *)
Ltac enter_enable :=
  unfold Viewport.enable;
  match goal with
  | |- context [Viewport.mode ?t] =>
      match goal with
      | |- context [width (domElement ?r)] =>
          rewrite (resolve_mode t (width (domElement r)) (height (domElement r)))
      end
  end.

(** Decides the anchor tests from a hypothesis [anchor this == K]. *)
Ltac choose_anchor H :=
  let T := fresh "T" in
  first [ pose proof (proj1 (anchor_tests _) H) as T
        | pose proof (proj1 (proj2 (anchor_tests _)) H) as T
        | pose proof (proj1 (proj2 (proj2 (anchor_tests _))) H) as T
        | pose proof (proj2 (proj2 (proj2 (anchor_tests _))) H) as T ];
  destruct T as (? & ? & ? & ?);
  repeat match goal with
         | E : JS.strict_eq _ _ = _ |- _ => rewrite E; clear E
         end.

(** The rectangle enable passes to the renderer for each enumerated
    anchor, and the agreement of the two registers. *)
Lemma enable_anchor (this : Viewport.t) (renderer : WebGLRenderer) :
  let width := width (domElement renderer) in
  let height := height (domElement renderer) in
  let ox := Vector2.x (Spec.effectiveOffset this width height) in
  let oy := Vector2.y (Spec.effectiveOffset this width height) in
  let sx := Vector2.x (Spec.effectiveSize this width height) in
  let sy := Vector2.y (Spec.effectiveSize this width height) in
  let after := Viewport.enable this renderer in
  _scissor after = _viewport after /\
  (Viewport.anchor this == Viewport.BOTTOM_LEFT ->
   _viewport after = Vector4.mk ox oy sx sy) /\
  (Viewport.anchor this == Viewport.BOTTOM_RIGHT ->
   _viewport after = Vector4.mk (width - sx - ox) oy sx sy) /\
  (Viewport.anchor this == Viewport.TOP_LEFT ->
   _viewport after = Vector4.mk ox (height - sy - oy) sx sy) /\
  (Viewport.anchor this == Viewport.TOP_RIGHT ->
   _viewport after = Vector4.mk (width - sx - ox) (height - sy - oy) sx sy).
Proof.
  cbv zeta. split.
  - enter_enable.
    repeat match goal with |- context [if ?c then _ else _] => destruct c end;
      reflexivity.
  - split; [| split; [| split]]; intros H; enter_enable; choose_anchor H; reflexivity.
Qed.

(** Without a match among the first three tests the last branch runs: an
    anchor outside the enumeration is drawn as TOP_RIGHT. *)
Lemma enable_fallthrough (this : Viewport.t) (renderer : WebGLRenderer) :
  let width := width (domElement renderer) in
  let height := height (domElement renderer) in
  let ox := Vector2.x (Spec.effectiveOffset this width height) in
  let oy := Vector2.y (Spec.effectiveOffset this width height) in
  let sx := Vector2.x (Spec.effectiveSize this width height) in
  let sy := Vector2.y (Spec.effectiveSize this width height) in
  ~ Viewport.anchor this == Viewport.BOTTOM_LEFT ->
  ~ Viewport.anchor this == Viewport.BOTTOM_RIGHT ->
  ~ Viewport.anchor this == Viewport.TOP_LEFT ->
  _viewport (Viewport.enable this renderer)
  = Vector4.mk (width - sx - ox) (height - sy - oy) sx sy.
Proof.
  cbv zeta. intros N1 N2 N3. enter_enable.
  apply strict_eq_false in N1, N2, N3. rewrite N1, N2, N3. reflexivity.
Qed.

(** C1. For every viewport state and surface size, enable leaves the same
    pixel rectangle in the renderer's viewport and scissor registers, and
    that rectangle is, from the effective offset (ox, oy) and size (sx, sy):
    (ox, oy, sx, sy) for BOTTOM_LEFT, (width - sx - ox, oy, sx, sy) for
    BOTTOM_RIGHT, (ox, height - sy - oy, sx, sy) for TOP_LEFT and
    (width - sx - ox, height - sy - oy, sx, sy) for TOP_RIGHT.  On a surface
    of 1000 by 500 with offset (10,10), size (100,50) and ABSOLUTE mode the
    four rectangles are (10,10,100,50), (890,10,100,50), (10,440,100,50)
    and (890,440,100,50). *)
Theorem enable_sets_anchor_rectangle :
  (forall (this : Viewport.t) (renderer : WebGLRenderer),
     let width := width (domElement renderer) in
     let height := height (domElement renderer) in
     let ox := Vector2.x (Spec.effectiveOffset this width height) in
     let oy := Vector2.y (Spec.effectiveOffset this width height) in
     let sx := Vector2.x (Spec.effectiveSize this width height) in
     let sy := Vector2.y (Spec.effectiveSize this width height) in
     let after := Viewport.enable this renderer in
     _scissor after = _viewport after /\
     (Viewport.anchor this == Viewport.BOTTOM_LEFT ->
      _viewport after = Vector4.mk ox oy sx sy) /\
     (Viewport.anchor this == Viewport.BOTTOM_RIGHT ->
      _viewport after = Vector4.mk (width - sx - ox) oy sx sy) /\
     (Viewport.anchor this == Viewport.TOP_LEFT ->
      _viewport after = Vector4.mk ox (height - sy - oy) sx sy) /\
     (Viewport.anchor this == Viewport.TOP_RIGHT ->
      _viewport after = Vector4.mk (width - sx - ox) (height - sy - oy) sx sy)) /\
  (forall (box viewport0 scissor0 : Vector4.t),
     let renderer :=
       {| domElement := {| width := 1000; height := 500 |};
          _viewport := viewport0; _scissor := scissor0 |} in
     let this anchor :=
       Viewport.mk (Vector2.mk 10 10) (Vector2.mk 100 50) Viewport.ABSOLUTE anchor box in
     let rectangles anchor :=
       (_viewport (Viewport.enable (this anchor) renderer),
        _scissor (Viewport.enable (this anchor) renderer)) in
     rectangles Viewport.BOTTOM_LEFT = (Vector4.mk 10 10 100 50, Vector4.mk 10 10 100 50) /\
     rectangles Viewport.BOTTOM_RIGHT = (Vector4.mk 890 10 100 50, Vector4.mk 890 10 100 50) /\
     rectangles Viewport.TOP_LEFT = (Vector4.mk 10 440 100 50, Vector4.mk 10 440 100 50) /\
     rectangles Viewport.TOP_RIGHT = (Vector4.mk 890 440 100 50, Vector4.mk 890 440 100 50)).
Proof.
  split.
  - exact enable_anchor.
  - intros box viewport0 scissor0 renderer this rectangles.
    subst rectangles this renderer. repeat split.
Qed.

(** ** isInside *)

(** Unfolds isInside and replaces the mode test by the specification's
    effective offset and size. *)
Ltac enter_isInside :=
  unfold Viewport.isInside;
  match goal with
  | |- context [width ?c] =>
      match goal with
      | |- context [JS.strict_eq (Viewport.mode ?t) Viewport.RELATIVE] =>
          rewrite (resolve_mode t (width c) (height c))
      end
  end.

(** Turns the four boolean comparisons into inequalities on rationals. *)
Ltac comparisons :=
  rewrite ?and4_true, ?gt_true, ?lt_true in *.

(** The effective offset and size in RELATIVE mode. *)
Lemma effective_relative (this : Viewport.t) (width height : Q) :
  Viewport.mode this == Viewport.RELATIVE ->
  Spec.effectiveOffset this width height
  = Vector2.mk (Vector2.x (Viewport.offset this) * width)
               (Vector2.y (Viewport.offset this) * height) /\
  Spec.effectiveSize this width height
  = Vector2.mk (Vector2.x (Viewport.size this) * width)
               (Vector2.y (Viewport.size this) * height).
Proof.
  intros E. unfold Spec.effectiveOffset, Spec.effectiveSize.
  destruct (Qeq_dec _ _) as [_ | N]; [split; reflexivity | contradiction].
Qed.

(** The test of isInside for each enumerated anchor, on the effective
    offset and size. *)
Lemma isInside_anchor (this : Viewport.t) (canvas : Canvas) (mouse : Mouse) :
  let width := width canvas in
  let height := height canvas in
  let ox := Vector2.x (Spec.effectiveOffset this width height) in
  let oy := Vector2.y (Spec.effectiveOffset this width height) in
  let sx := Vector2.x (Spec.effectiveSize this width height) in
  let sy := Vector2.y (Spec.effectiveSize this width height) in
  let px := Vector2.x (position mouse) in
  let py := Vector2.y (position mouse) in
  let inside := Viewport.isInside this canvas mouse = true in
  (Viewport.anchor this == Viewport.TOP_LEFT ->
   (inside <-> (ox < px /\ px < ox + sx) /\ (oy < py /\ py < oy + sy))) /\
  (Viewport.anchor this == Viewport.TOP_RIGHT ->
   (inside <->
    (width - sx - ox < px /\ px < width - ox) /\ (oy < py /\ py < oy + sy))) /\
  (Viewport.anchor this == Viewport.BOTTOM_LEFT ->
   (inside <->
    (ox < px /\ px < ox + sx) /\ (height - oy - sy < py /\ py < height - oy))) /\
  (Viewport.anchor this == Viewport.BOTTOM_RIGHT ->
   (inside <->
    (width - sx - ox < px /\ px < width - ox) /\
    (height - oy - sy < py /\ py < height - oy))).
Proof.
  cbv zeta.
  split; [| split; [| split]]; intros H;
    enter_isInside; choose_anchor H; comparisons; reflexivity.
Qed.

(** Without a match among the first three tests the last branch runs: an
    anchor outside the enumeration is tested as BOTTOM_RIGHT. *)
Lemma isInside_fallthrough (this : Viewport.t) (canvas : Canvas) (mouse : Mouse) :
  let width := width canvas in
  let height := height canvas in
  let ox := Vector2.x (Spec.effectiveOffset this width height) in
  let oy := Vector2.y (Spec.effectiveOffset this width height) in
  let sx := Vector2.x (Spec.effectiveSize this width height) in
  let sy := Vector2.y (Spec.effectiveSize this width height) in
  let px := Vector2.x (position mouse) in
  let py := Vector2.y (position mouse) in
  ~ Viewport.anchor this == Viewport.TOP_LEFT ->
  ~ Viewport.anchor this == Viewport.TOP_RIGHT ->
  ~ Viewport.anchor this == Viewport.BOTTOM_LEFT ->
  (Viewport.isInside this canvas mouse = true <->
   (width - sx - ox < px /\ px < width - ox) /\
   (height - oy - sy < py /\ py < height - oy)).
Proof.
  cbv zeta. intros N1 N2 N3. enter_isInside.
  apply strict_eq_false in N1, N2, N3. rewrite N1, N2, N3.
  comparisons. reflexivity.
Qed.

(** C2. For every mode, anchor, offset, size, surface and pointer, isInside
    is the test of an open rectangle, strict on all four bounds, on the
    effective offset (ox, oy) and size (sx, sy): TOP_LEFT tests
    ox < px < ox + sx and oy < py < oy + sy; TOP_RIGHT tests
    width - sx - ox < px < width - ox with the same vertical test;
    BOTTOM_LEFT tests height - oy - sy < py < height - oy with the horizontal
    test of TOP_LEFT; BOTTOM_RIGHT flips both.  A pointer on a bound is
    outside.  With RELATIVE mode, TOP_LEFT, offset (0,0), size (1,1) on a
    surface of 800 by 600 every pointer from (1,1) to (799,599) is inside
    and the pointers (0,0) and (800,600) are outside. *)
Theorem isInside_open_rectangle :
  (forall (this : Viewport.t) (canvas : Canvas) (mouse : Mouse),
     let width := width canvas in
     let height := height canvas in
     let ox := Vector2.x (Spec.effectiveOffset this width height) in
     let oy := Vector2.y (Spec.effectiveOffset this width height) in
     let sx := Vector2.x (Spec.effectiveSize this width height) in
     let sy := Vector2.y (Spec.effectiveSize this width height) in
     let px := Vector2.x (position mouse) in
     let py := Vector2.y (position mouse) in
     let inside := Viewport.isInside this canvas mouse = true in
     (Viewport.anchor this == Viewport.TOP_LEFT ->
      (inside <-> (ox < px /\ px < ox + sx) /\ (oy < py /\ py < oy + sy))) /\
     (Viewport.anchor this == Viewport.TOP_RIGHT ->
      (inside <->
       (width - sx - ox < px /\ px < width - ox) /\ (oy < py /\ py < oy + sy))) /\
     (Viewport.anchor this == Viewport.BOTTOM_LEFT ->
      (inside <->
       (ox < px /\ px < ox + sx) /\ (height - oy - sy < py /\ py < height - oy))) /\
     (Viewport.anchor this == Viewport.BOTTOM_RIGHT ->
      (inside <->
       (width - sx - ox < px /\ px < width - ox) /\
       (height - oy - sy < py /\ py < height - oy)))) /\
  (forall (box : Vector4.t) (px py : Q),
     let this :=
       Viewport.mk (Vector2.mk 0 0) (Vector2.mk 1 1) Viewport.RELATIVE Viewport.TOP_LEFT box in
     let canvas := {| width := 800; height := 600 |} in
     let inside x y := Viewport.isInside this canvas {| position := Vector2.mk x y |} in
     (1 <= px <= 799 -> 1 <= py <= 599 -> inside px py = true) /\
     inside 0 0 = false /\
     inside 800 600 = false).
Proof.
  split.
  - exact isInside_anchor.
  - intros box px py. cbv zeta. split; [| split; reflexivity].
    intros [Hx1 Hx2] [Hy1 Hy2].
    apply (proj1 (isInside_anchor _ _ _)); [reflexivity |].
    match goal with
    | |- context [Spec.effectiveOffset ?t ?w ?h] =>
        destruct (effective_relative t w h) as [Eo Es]; [reflexivity |];
        rewrite Eo, Es
    end.
    cbn. repeat split; lra.
Qed.

(** ** getNormalized *)

(** A division by a positive number is a finite number. *)
Lemma div_positive (a s : Q) : 0 < s -> JS.div a s = Some (a / s).
Proof.
  intros Hs. unfold JS.div.
  destruct (Qeq_bool s 0) eqn:E; [| reflexivity].
  apply Qeq_bool_iff in E. rewrite E in Hs. discriminate Hs.
Qed.

(** A numerator between 0 and the divisor gives a ratio between 0 and 1. *)
Lemma ratio_of_part (a s : Q) :
  0 < s -> 0 < a -> a < s -> 0 < a / s /\ a / s < 1.
Proof.
  intros Hs Ha Has. split.
  - apply Qlt_shift_div_l; [exact Hs | lra].
  - apply Qlt_shift_div_r; [exact Hs | lra].
Qed.

(** A numerator between the opposite of the divisor and 0 gives a ratio
    between -1 and 0. *)
Lemma ratio_of_negated_part (a s : Q) :
  0 < s -> - s < a -> a < 0 -> -1 < a / s /\ a / s < 0.
Proof.
  intros Hs Ha Has. split.
  - apply Qlt_shift_div_l; [exact Hs | lra].
  - apply Qlt_shift_div_r; [exact Hs | lra].
Qed.

(** Unfolds getNormalized and replaces the mode test by the specification's
    effective offset and size. *)
Ltac enter_getNormalized :=
  unfold Viewport.getNormalized;
  match goal with
  | |- context [width ?c] =>
      match goal with
      | |- context [JS.strict_eq (Viewport.mode ?t) Viewport.RELATIVE] =>
          rewrite (resolve_mode t (width c) (height c))
      end
  end.

(** Bounds the ratio [a / s] of the goal by one of the two lemmas above and
    forgets how it was computed. *)
Ltac bound_ratio a s Hs :=
  first [ pose proof (ratio_of_part a s Hs ltac:(lra) ltac:(lra))
        | pose proof (ratio_of_negated_part a s Hs ltac:(lra) ltac:(lra)) ];
  generalize dependent (a / s); intros.

Ltac bound_ratios :=
  repeat match goal with
         | Hs : 0 < ?s |- context [?a / ?s] => bound_ratio a s Hs
         end.

(** In exact arithmetic: for every mode and anchor, when both components of
    the effective size are positive and isInside holds for the pointer,
    getNormalized returns a vector whose two components lie strictly
    between -1 and 1.  The binary64 results of the code can leave that
    interval (last section). *)
Lemma getNormalized_within_unit_square
  (normalized : Vector2.t) (this : Viewport.t) (canvas : Canvas) (mouse : Mouse) :
  let sx := Vector2.x (Spec.effectiveSize this (width canvas) (height canvas)) in
  let sy := Vector2.y (Spec.effectiveSize this (width canvas) (height canvas)) in
  0 < sx ->
  0 < sy ->
  Viewport.isInside this canvas mouse = true ->
  exists n : Vector2.t,
    Viewport.getNormalized normalized this canvas mouse = Some n /\
    (-1 < Vector2.x n /\ Vector2.x n < 1) /\
    (-1 < Vector2.y n /\ Vector2.y n < 1).
Proof.
  cbv zeta. intros Hsx Hsy. enter_isInside. enter_getNormalized.
  set (offset := Spec.effectiveOffset _ _ _) in *.
  set (viewport := Spec.effectiveSize _ _ _) in *.
  repeat match goal with
         | |- context [if ?c then _ else _] => destruct c
         end;
    comparisons; intros [[Hl Hr] [Ht Hb]];
    rewrite !div_positive by assumption; cbn [mbind option_bind];
    eexists; (split; [reflexivity |]); cbn [Vector2.set Vector2.x Vector2.y];
    bound_ratios; lra.
Qed.

(** ** toJSON and fromJSON *)

(** The four properties of the serialized record. *)
Lemma toJSON_get (this : Viewport.t) :
  JS.get (Viewport.toJSON this) "offset" = Vector2.toArray (Viewport.offset this) /\
  JS.get (Viewport.toJSON this) "size" = Vector2.toArray (Viewport.size this) /\
  JS.get (Viewport.toJSON this) "mode" = JS.Number (Viewport.mode this) /\
  JS.get (Viewport.toJSON this) "anchor" = JS.Number (Viewport.anchor this).
Proof.
  unfold JS.get, Viewport.toJSON. cbn [list_to_map foldr uncurry fst snd].
  rewrite lookup_insert_eq.
  rewrite (lookup_insert_ne _ "offset" "size"), lookup_insert_eq by discriminate.
  rewrite !(lookup_insert_ne _ _ "mode"), lookup_insert_eq by discriminate.
  rewrite !(lookup_insert_ne _ _ "anchor"), lookup_insert_eq by discriminate.
  repeat split.
Qed.

(** Reading back the array written by toArray restores the vector, whatever
    the receiving vector held. *)
Lemma fromArray_toArray (v w : Vector2.t) :
  Vector2.fromArray (Vector2.toArray v) w = (JS.Returned, v).
Proof. destruct v as [vx vy]. reflexivity. Qed.

Lemma keeps_viewport_seq (f g : JS.Step Viewport.t) :
  Spec.keeps_viewport f -> Spec.keeps_viewport g -> Spec.keeps_viewport (f ;; g).
Proof.
  intros Hf Hg this. unfold JS.seq. specialize (Hf this).
  destruct (f this) as [[ | | ] this']; cbn in *; [| exact Hf |].
  - rewrite Hg. exact Hf.
  - specialize (Hg this'). destruct (g this') as [[ | | ] this'']; cbn in *;
      rewrite Hg; exact Hf.
Qed.

Lemma keeps_viewport_offset (f : JS.Step Vector2.t) :
  Spec.keeps_viewport (JS.on Viewport.offset Viewport.set_offset f).
Proof. intros this. unfold JS.on. destruct (f _). reflexivity. Qed.

Lemma keeps_viewport_size (f : JS.Step Vector2.t) :
  Spec.keeps_viewport (JS.on Viewport.size Viewport.set_size f).
Proof. intros this. unfold JS.on. destruct (f _). reflexivity. Qed.

Lemma keeps_viewport_mode (value : JS.Value) :
  Spec.keeps_viewport (Viewport.assign Viewport.set_mode value).
Proof. intros this. destruct value; reflexivity. Qed.

Lemma keeps_viewport_anchor (value : JS.Value) :
  Spec.keeps_viewport (Viewport.assign Viewport.set_anchor value).
Proof. intros this. destruct value; reflexivity. Qed.

(** C4. For every viewport state v and every receiving viewport w, a fresh
    one in particular, w.fromJSON(v.toJSON()) returns and leaves in w the
    offset, size, mode and anchor of v and the viewport field w had.  The
    record of toJSON has exactly the properties offset, size, mode and
    anchor, and no property viewport; fromJSON leaves the viewport field as
    it was for every record, however the call ends. *)
Theorem toJSON_fromJSON_round_trip :
  (forall v w : Viewport.t,
     Viewport.fromJSON (Viewport.toJSON v) w
     = (JS.Returned,
        Viewport.mk (Viewport.offset v) (Viewport.size v) (Viewport.mode v)
          (Viewport.anchor v) (Viewport.viewport w))) /\
  (forall (v : Viewport.t) (mode : option Q),
     let w := snd (Viewport.fromJSON (Viewport.toJSON v) (Viewport.new mode)) in
     Viewport.offset w = Viewport.offset v /\
     Viewport.size w = Viewport.size v /\
     Viewport.mode w = Viewport.mode v /\
     Viewport.anchor w = Viewport.anchor v /\
     Viewport.viewport w = Viewport.viewport (Viewport.new mode)) /\
  (forall v : Viewport.t,
     dom (Viewport.toJSON v) = ({[ "offset"; "size"; "mode"; "anchor" ]} : gset string) /\
     Viewport.toJSON v !! "viewport" = None) /\
  (forall (data : gmap string JS.Value) (w : Viewport.t),
     Viewport.viewport (snd (Viewport.fromJSON data w)) = Viewport.viewport w).
Proof.
  assert (round : forall v w : Viewport.t,
             Viewport.fromJSON (Viewport.toJSON v) w
             = (JS.Returned,
                Viewport.mk (Viewport.offset v) (Viewport.size v) (Viewport.mode v)
                  (Viewport.anchor v) (Viewport.viewport w))).
  { intros v w. unfold Viewport.fromJSON.
    destruct (toJSON_get v) as (-> & -> & -> & ->).
    unfold JS.seq, JS.on. rewrite !fromArray_toArray. reflexivity. }
  split; [exact round |]. split; [| split].
  - intros v mode. cbv zeta. rewrite round. repeat split.
  - intros v. split.
    + unfold Viewport.toJSON. cbn [list_to_map foldr uncurry fst snd].
      rewrite !dom_insert_L, dom_empty_L. set_solver.
    + unfold Viewport.toJSON. cbn [list_to_map foldr uncurry fst snd].
      rewrite !lookup_insert_ne by discriminate. apply lookup_empty.
  - intros data. unfold Viewport.fromJSON.
    repeat apply keeps_viewport_seq.
    + apply keeps_viewport_offset.
    + apply keeps_viewport_size.
    + apply keeps_viewport_mode.
    + apply keeps_viewport_anchor.
Qed.

(** ** update, the constructor, getAspectRatio and the constants *)

(** C5. For every viewport state, update() changes nothing: offset, size,
    mode, anchor and the viewport field hold the values they held before
    the call. *)
Theorem update_changes_nothing (this : Viewport.t) :
  let after := Viewport.update this in
  after = this /\
  Viewport.offset after = Viewport.offset this /\
  Viewport.size after = Viewport.size this /\
  Viewport.mode after = Viewport.mode this /\
  Viewport.anchor after = Viewport.anchor this /\
  Viewport.viewport after = Viewport.viewport this.
Proof. unfold Viewport.update. repeat split. Qed.

(** C6, as the code has it. Viewport(mode) with the argument omitted has
    mode RELATIVE and otherwise the mode given; every construction starts
    with offset (0,0), size (1,1), anchor TOP_LEFT and the viewport field
    that [new THREE.Vector4()] builds, which is (0,0,0,1). *)
Theorem new_initial_state :
  Viewport.mode (Viewport.new None) = Viewport.RELATIVE /\
  (forall m : Q, Viewport.mode (Viewport.new (Some m)) = m) /\
  (forall mode : option Q,
     Viewport.offset (Viewport.new mode) = Vector2.mk 0 0 /\
     Viewport.size (Viewport.new mode) = Vector2.mk 1 1 /\
     Viewport.anchor (Viewport.new mode) = Viewport.TOP_LEFT /\
     Viewport.viewport (Viewport.new mode) = Vector4.mk 0 0 0 1).
Proof. repeat split. Qed.

(** C6, as stated, fails: the viewport field of a fresh Viewport is not
    (0,0,0,0); its last component is 1. *)
Lemma new_viewport_is_not_zero :
  Viewport.viewport (Viewport.new None) = Vector4.mk 0 0 0 1 /\
  Viewport.viewport (Viewport.new None) <> Vector4.mk 0 0 0 0 /\
  ~ Vector4.w (Viewport.viewport (Viewport.new None)) == 0.
Proof. repeat split; discriminate. Qed.

(** C7. For every viewport state, getAspectRatio() is size.x / size.y (a
    finite number when size.y is not zero) and depends on the size field
    only: two states with the same size have the same ratio, whatever their
    mode, offset, anchor and viewport field, and no surface enters.  Size
    (0.5, 0.25) gives 2 and size (640, 480) in ABSOLUTE mode gives 4/3. *)
Theorem getAspectRatio_of_size :
  (forall this : Viewport.t,
     Viewport.getAspectRatio this
     = JS.div (Vector2.x (Viewport.size this)) (Vector2.y (Viewport.size this))) /\
  (forall this : Viewport.t,
     ~ Vector2.y (Viewport.size this) == 0 ->
     Viewport.getAspectRatio this
     = Some (Vector2.x (Viewport.size this) / Vector2.y (Viewport.size this))) /\
  (forall this other : Viewport.t,
     Viewport.size other = Viewport.size this ->
     Viewport.getAspectRatio other = Viewport.getAspectRatio this) /\
  (forall (offset : Vector2.t) (mode anchor : Q) (box : Vector4.t),
     exists ratio : Q,
       Viewport.getAspectRatio
         (Viewport.mk offset (Vector2.mk 0.5 0.25) mode anchor box) = Some ratio /\
       ratio == 2) /\
  (forall (offset : Vector2.t) (anchor : Q) (box : Vector4.t),
     exists ratio : Q,
       Viewport.getAspectRatio
         (Viewport.mk offset (Vector2.mk 640 480) Viewport.ABSOLUTE anchor box) = Some ratio /\
       ratio == 4 # 3).
Proof.
  split; [reflexivity |]. split; [| split; [| split]].
  - intros this N. unfold Viewport.getAspectRatio, JS.div.
    destruct (Qeq_bool _ 0) eqn:E; [| reflexivity].
    apply Qeq_bool_iff in E. contradiction.
  - intros this other E. unfold Viewport.getAspectRatio. rewrite E. reflexivity.
  - intros offset mode anchor box. eexists. split; reflexivity.
  - intros offset anchor box. eexists. split; reflexivity.
Qed.

(** C8. The constants are RELATIVE = 200, ABSOLUTE = 201, TOP_LEFT = 301,
    TOP_RIGHT = 302, BOTTOM_LEFT = 303 and BOTTOM_RIGHT = 304, and for every
    viewport state toJSON emits the numbers held by the mode and anchor
    fields: 200 or 201 for the two modes, 301 to 304 for the four anchors. *)
Theorem constants_and_serialized_values :
  (Viewport.RELATIVE = 200 /\ Viewport.ABSOLUTE = 201 /\
   Viewport.TOP_LEFT = 301 /\ Viewport.TOP_RIGHT = 302 /\
   Viewport.BOTTOM_LEFT = 303 /\ Viewport.BOTTOM_RIGHT = 304) /\
  (forall this : Viewport.t,
     Viewport.toJSON this !! "mode" = Some (JS.Number (Viewport.mode this)) /\
     Viewport.toJSON this !! "anchor" = Some (JS.Number (Viewport.anchor this))) /\
  (forall (offset size : Vector2.t) (box : Vector4.t) (mode anchor : Q),
     let emitted m a :=
       (Viewport.toJSON (Viewport.mk offset size m a box) !! "mode",
        Viewport.toJSON (Viewport.mk offset size m a box) !! "anchor") in
     emitted Viewport.RELATIVE anchor = (Some (JS.Number 200), Some (JS.Number anchor)) /\
     emitted Viewport.ABSOLUTE anchor = (Some (JS.Number 201), Some (JS.Number anchor)) /\
     emitted mode Viewport.TOP_LEFT = (Some (JS.Number mode), Some (JS.Number 301)) /\
     emitted mode Viewport.TOP_RIGHT = (Some (JS.Number mode), Some (JS.Number 302)) /\
     emitted mode Viewport.BOTTOM_LEFT = (Some (JS.Number mode), Some (JS.Number 303)) /\
     emitted mode Viewport.BOTTOM_RIGHT = (Some (JS.Number mode), Some (JS.Number 304))).
Proof.
  assert (emit : forall this : Viewport.t,
             Viewport.toJSON this !! "mode" = Some (JS.Number (Viewport.mode this)) /\
             Viewport.toJSON this !! "anchor" = Some (JS.Number (Viewport.anchor this))).
  { intros this. unfold Viewport.toJSON. cbn [list_to_map foldr uncurry fst snd].
    rewrite !(lookup_insert_ne _ _ "mode"), lookup_insert_eq by discriminate.
    rewrite !(lookup_insert_ne _ _ "anchor"), lookup_insert_eq by discriminate.
    split; reflexivity. }
  split; [repeat split |]. split; [exact emit |].
  intros offset size box mode anchor emitted. subst emitted. cbv beta.
  repeat split;
    match goal with
    | |- (Viewport.toJSON ?t !! _, _) = _ => destruct (emit t) as [-> ->]
    end; reflexivity.
Qed.

(** ** isInside and enable together *)

(** In exact arithmetic: for every mode, every anchor of the enumeration
    and every offset, size and surface, a pointer (px, py) in
    top-left-origin coordinates satisfies isInside exactly when the flipped
    point (px, height - py) lies strictly inside the bottom-left-origin
    rectangle (x, y, w, h) that enable passes to setViewport and
    setScissor.  In binary64 the two methods round the edges differently
    (last section). *)
Lemma isInside_matches_enable
  (this : Viewport.t) (renderer : WebGLRenderer) (mouse : Mouse) :
  let canvas := domElement renderer in
  let px := Vector2.x (position mouse) in
  let py := Vector2.y (position mouse) in
  let rectangle := _viewport (Viewport.enable this renderer) in
  let x := Vector4.x rectangle in
  let y := Vector4.y rectangle in
  let w := Vector4.z rectangle in
  let h := Vector4.w rectangle in
  Spec.enumerated_anchor this ->
  _scissor (Viewport.enable this renderer) = rectangle /\
  (Viewport.isInside this canvas mouse = true <->
   (x < px /\ px < x + w) /\ (y < height canvas - py /\ height canvas - py < y + h)).
Proof.
  cbv zeta. intros Henum.
  destruct (enable_anchor this renderer) as (Hs & Hbl & Hbr & Htl & Htr).
  destruct (isInside_anchor this (domElement renderer) mouse) as (Itl & Itr & Ibl & Ibr).
  split; [exact Hs |].
  destruct Henum as [H | [H | [H | H]]].
  - rewrite (Itl H), (Htl H). cbn [Vector4.x Vector4.y Vector4.z Vector4.w].
    split; intros [[? ?] [? ?]]; repeat split; lra.
  - rewrite (Itr H), (Htr H). cbn [Vector4.x Vector4.y Vector4.z Vector4.w].
    split; intros [[? ?] [? ?]]; repeat split; lra.
  - rewrite (Ibl H), (Hbl H). cbn [Vector4.x Vector4.y Vector4.z Vector4.w].
    split; intros [[? ?] [? ?]]; repeat split; lra.
  - rewrite (Ibr H), (Hbr H). cbn [Vector4.x Vector4.y Vector4.z Vector4.w].
    split; intros [[? ?] [? ?]]; repeat split; lra.
Qed.

(** For an anchor outside the enumeration the two methods part: isInside
    tests the BOTTOM_RIGHT rectangle and enable draws the TOP_RIGHT one.
    With anchor 0, a viewport of 100 by 50 at offset (10,10) on a surface of
    1000 by 500 is drawn over the pointer (900, 20), which isInside reports
    outside. *)
Example unknown_anchor_parts :
  let this :=
    Viewport.mk (Vector2.mk 10 10) (Vector2.mk 100 50) Viewport.ABSOLUTE 0
      (Vector4.mk 0 0 0 1) in
  let renderer :=
    {| domElement := {| width := 1000; height := 500 |};
       _viewport := Vector4.mk 0 0 1000 500; _scissor := Vector4.mk 0 0 1000 500 |} in
  _viewport (Viewport.enable this renderer) = Vector4.mk 890 440 100 50 /\
  Viewport.isInside this (domElement renderer) {| position := Vector2.mk 900 20 |} = false /\
  Viewport.isInside this (domElement renderer) {| position := Vector2.mk 900 480 |} = true.
Proof. repeat split. Qed.

(** C10. For every mode and anchor and every offset, surface and pointer:
    when a component of the effective size is zero or negative, isInside
    returns false. *)
Theorem isInside_empty_viewport
  (this : Viewport.t) (canvas : Canvas) (mouse : Mouse) :
  let sx := Vector2.x (Spec.effectiveSize this (width canvas) (height canvas)) in
  let sy := Vector2.y (Spec.effectiveSize this (width canvas) (height canvas)) in
  sx <= 0 \/ sy <= 0 ->
  Viewport.isInside this canvas mouse = false.
Proof.
  cbv zeta. intros Hempty. apply not_true_is_false. enter_isInside.
  set (offset := Spec.effectiveOffset _ _ _) in *.
  set (viewport := Spec.effectiveSize _ _ _) in *.
  repeat match goal with
         | |- context [if ?c then _ else _] => destruct c
         end;
    comparisons; intros [[Hl Hr] [Ht Hb]]; destruct Hempty; lra.
Qed.

(** The hypothesis of C10 holds for a viewport of size (0,0) in ABSOLUTE
    mode. *)
Lemma isInside_empty_viewport_witness :
  Viewport.isInside
    (Viewport.mk (Vector2.mk 10 10) (Vector2.mk 0 0) Viewport.ABSOLUTE
       Viewport.BOTTOM_LEFT (Vector4.mk 0 0 0 1))
    {| width := 1000; height := 500 |} {| position := Vector2.mk 10 490 |} = false.
Proof.
  apply (isInside_empty_viewport
           (Viewport.mk (Vector2.mk 10 10) (Vector2.mk 0 0) Viewport.ABSOLUTE
              Viewport.BOTTOM_LEFT (Vector4.mk 0 0 0 1))
           {| width := 1000; height := 500 |} {| position := Vector2.mk 10 490 |}).
  left. vm_compute. discriminate.
Defined.

(** ** Further properties of the methods *)

(** Reduces the field reads of a state built by a constructor or a setter. *)
Ltac fields :=
  cbn [Viewport.offset Viewport.size Viewport.mode Viewport.anchor Viewport.viewport
       Viewport.set_offset Viewport.set_size Viewport.set_mode Viewport.set_anchor
       Spec.in_pixels Vector2.x Vector2.y Vector2.new default
       domElement _viewport _scissor width height position] in *.

(** The anchor tests on the constants themselves. *)
Lemma constant_tests :
  (JS.strict_eq Viewport.TOP_LEFT Viewport.TOP_LEFT = true) /\
  (JS.strict_eq Viewport.TOP_RIGHT Viewport.TOP_LEFT = false /\
   JS.strict_eq Viewport.TOP_RIGHT Viewport.TOP_RIGHT = true /\
   JS.strict_eq Viewport.TOP_RIGHT Viewport.BOTTOM_LEFT = false /\
   JS.strict_eq Viewport.TOP_RIGHT Viewport.BOTTOM_RIGHT = false) /\
  (JS.strict_eq Viewport.BOTTOM_RIGHT Viewport.TOP_LEFT = false /\
   JS.strict_eq Viewport.BOTTOM_RIGHT Viewport.TOP_RIGHT = false /\
   JS.strict_eq Viewport.BOTTOM_RIGHT Viewport.BOTTOM_LEFT = false) /\
  JS.strict_eq Viewport.ABSOLUTE Viewport.RELATIVE = false.
Proof. repeat split. Qed.

(** An anchor outside the enumeration fails all four tests. *)
Lemma unknown_anchor_tests (this : Viewport.t) :
  ~ Spec.enumerated_anchor this ->
  JS.strict_eq (Viewport.anchor this) Viewport.TOP_LEFT = false /\
  JS.strict_eq (Viewport.anchor this) Viewport.TOP_RIGHT = false /\
  JS.strict_eq (Viewport.anchor this) Viewport.BOTTOM_LEFT = false /\
  JS.strict_eq (Viewport.anchor this) Viewport.BOTTOM_RIGHT = false.
Proof.
  unfold Spec.enumerated_anchor. intros N.
  repeat split; apply strict_eq_false; intros E; apply N; tauto.
Qed.

(** X1. enable overwrites what the renderer held: its result depends on the
    renderer through the canvas only, it leaves the canvas as it was, and
    enabling a second viewport after a first leaves the renderer as enabling
    the second alone does. *)
Theorem enable_overrides_previous (first second : Viewport.t) (renderer : WebGLRenderer) :
  domElement (Viewport.enable first renderer) = domElement renderer /\
  (forall other : WebGLRenderer,
     domElement other = domElement renderer ->
     Viewport.enable first other = Viewport.enable first renderer) /\
  Viewport.enable second (Viewport.enable first renderer) = Viewport.enable second renderer.
Proof.
  assert (canvas_kept : forall (v : Viewport.t) (r : WebGLRenderer),
             domElement (Viewport.enable v r) = domElement r).
  { intros v r. unfold Viewport.enable.
    repeat match goal with |- context [if ?c then _ else _] => destruct c end;
      reflexivity. }
  assert (canvas_only : forall (v : Viewport.t) (r r' : WebGLRenderer),
             domElement r' = domElement r -> Viewport.enable v r' = Viewport.enable v r).
  { intros v r r' E. unfold Viewport.enable. rewrite E.
    repeat match goal with |- context [if ?c then _ else _] => destruct c end;
      unfold setScissor, setViewport; fields; rewrite E; reflexivity. }
  split; [apply canvas_kept |]. split; [intros other; apply canvas_only |].
  apply canvas_only, canvas_kept.
Qed.

(** X2. A mode that is not RELATIVE is handled as ABSOLUTE: isInside,
    getNormalized and enable give what they give for the same state with
    mode ABSOLUTE. *)
Theorem unknown_mode_is_absolute
  (this : Viewport.t) (canvas : Canvas) (mouse : Mouse)
  (normalized : Vector2.t) (renderer : WebGLRenderer) :
  ~ Viewport.mode this == Viewport.RELATIVE ->
  let absolute := Viewport.set_mode Viewport.ABSOLUTE this in
  Viewport.isInside this canvas mouse = Viewport.isInside absolute canvas mouse /\
  Viewport.getNormalized normalized this canvas mouse
  = Viewport.getNormalized normalized absolute canvas mouse /\
  Viewport.enable this renderer = Viewport.enable absolute renderer.
Proof.
  intros N absolute. subst absolute. apply strict_eq_false in N.
  destruct constant_tests as (_ & _ & _ & A).
  unfold Viewport.isInside, Viewport.getNormalized, Viewport.enable. fields.
  rewrite N, A. repeat split.
Qed.

(** The hypothesis of X2 holds for mode 0. *)
Lemma unknown_mode_is_absolute_witness :
  let this :=
    Viewport.mk (Vector2.mk 10 10) (Vector2.mk 100 50) 0 Viewport.TOP_LEFT
      (Vector4.mk 0 0 0 1) in
  let canvas := {| width := 1000; height := 500 |} in
  let mouse := {| position := Vector2.mk 20 20 |} in
  let renderer :=
    {| domElement := canvas; _viewport := Vector4.mk 0 0 0 1;
       _scissor := Vector4.mk 0 0 0 1 |} in
  let absolute := Viewport.set_mode Viewport.ABSOLUTE this in
  Viewport.isInside this canvas mouse = Viewport.isInside absolute canvas mouse /\
  Viewport.getNormalized (Vector2.mk 0 0) this canvas mouse
  = Viewport.getNormalized (Vector2.mk 0 0) absolute canvas mouse /\
  Viewport.enable this renderer = Viewport.enable absolute renderer.
Proof.
  apply (unknown_mode_is_absolute
           (Viewport.mk (Vector2.mk 10 10) (Vector2.mk 100 50) 0 Viewport.TOP_LEFT
              (Vector4.mk 0 0 0 1))).
  vm_compute. discriminate.
Defined.

(** X3. An anchor outside the enumeration takes the last branch of each
    method: isInside and getNormalized give what they give for BOTTOM_RIGHT,
    and enable gives what it gives for TOP_RIGHT. *)
Theorem unknown_anchor_branches
  (this : Viewport.t) (canvas : Canvas) (mouse : Mouse)
  (normalized : Vector2.t) (renderer : WebGLRenderer) :
  ~ Spec.enumerated_anchor this ->
  Viewport.isInside this canvas mouse
  = Viewport.isInside (Viewport.set_anchor Viewport.BOTTOM_RIGHT this) canvas mouse /\
  Viewport.getNormalized normalized this canvas mouse
  = Viewport.getNormalized normalized
      (Viewport.set_anchor Viewport.BOTTOM_RIGHT this) canvas mouse /\
  Viewport.enable this renderer
  = Viewport.enable (Viewport.set_anchor Viewport.TOP_RIGHT this) renderer.
Proof.
  intros N. destruct (unknown_anchor_tests this N) as (T1 & T2 & T3 & T4).
  destruct constant_tests as (_ & (R1 & _ & R3 & R4) & (B1 & B2 & B3) & _).
  unfold Viewport.isInside, Viewport.getNormalized, Viewport.enable. fields.
  rewrite T1, T2, T3, T4, R1, R3, R4, B1, B2, B3. repeat split.
Qed.

(** The hypothesis of X3 holds for anchor 0. *)
Lemma unknown_anchor_branches_witness :
  let this :=
    Viewport.mk (Vector2.mk 10 10) (Vector2.mk 100 50) Viewport.ABSOLUTE 0
      (Vector4.mk 0 0 0 1) in
  let canvas := {| width := 1000; height := 500 |} in
  let mouse := {| position := Vector2.mk 900 480 |} in
  let renderer :=
    {| domElement := canvas; _viewport := Vector4.mk 0 0 0 1;
       _scissor := Vector4.mk 0 0 0 1 |} in
  Viewport.isInside this canvas mouse
  = Viewport.isInside (Viewport.set_anchor Viewport.BOTTOM_RIGHT this) canvas mouse /\
  Viewport.getNormalized (Vector2.mk 0 0) this canvas mouse
  = Viewport.getNormalized (Vector2.mk 0 0)
      (Viewport.set_anchor Viewport.BOTTOM_RIGHT this) canvas mouse /\
  Viewport.enable this renderer
  = Viewport.enable (Viewport.set_anchor Viewport.TOP_RIGHT this) renderer.
Proof.
  apply (unknown_anchor_branches
           (Viewport.mk (Vector2.mk 10 10) (Vector2.mk 100 50) Viewport.ABSOLUTE 0
              (Vector4.mk 0 0 0 1))).
  unfold Spec.enumerated_anchor. vm_compute. intuition discriminate.
Defined.

(** X4. On a given surface a RELATIVE viewport behaves as the ABSOLUTE
    viewport whose offset and size are the products by the surface's width
    and height: isInside, getNormalized and enable agree on the two. *)
Theorem relative_is_absolute_in_pixels
  (this : Viewport.t) (mouse : Mouse) (normalized : Vector2.t) (renderer : WebGLRenderer) :
  Viewport.mode this == Viewport.RELATIVE ->
  let canvas := domElement renderer in
  let pixels := Spec.in_pixels this (width canvas) (height canvas) in
  Viewport.isInside this canvas mouse = Viewport.isInside pixels canvas mouse /\
  Viewport.getNormalized normalized this canvas mouse
  = Viewport.getNormalized normalized pixels canvas mouse /\
  Viewport.enable this renderer = Viewport.enable pixels renderer.
Proof.
  intros E canvas pixels. subst pixels canvas. apply strict_eq_true in E.
  destruct constant_tests as (_ & _ & _ & A).
  unfold Viewport.isInside, Viewport.getNormalized, Viewport.enable. fields.
  rewrite E, A. repeat split.
Qed.

(** The hypothesis of X4 holds for the left half of a surface of 800 by
    600. *)
Lemma relative_is_absolute_in_pixels_witness :
  let this :=
    Viewport.mk (Vector2.mk 0 0) (Vector2.mk 0.5 1) Viewport.RELATIVE Viewport.TOP_LEFT
      (Vector4.mk 0 0 0 1) in
  let mouse := {| position := Vector2.mk 100 100 |} in
  let renderer :=
    {| domElement := {| width := 800; height := 600 |};
       _viewport := Vector4.mk 0 0 0 1; _scissor := Vector4.mk 0 0 0 1 |} in
  let canvas := domElement renderer in
  let pixels := Spec.in_pixels this (width canvas) (height canvas) in
  Viewport.isInside this canvas mouse = Viewport.isInside pixels canvas mouse /\
  Viewport.getNormalized (Vector2.mk 0 0) this canvas mouse
  = Viewport.getNormalized (Vector2.mk 0 0) pixels canvas mouse /\
  Viewport.enable this renderer = Viewport.enable pixels renderer.
Proof.
  apply (relative_is_absolute_in_pixels
           (Viewport.mk (Vector2.mk 0 0) (Vector2.mk 0.5 1) Viewport.RELATIVE
              Viewport.TOP_LEFT (Vector4.mk 0 0 0 1))).
  reflexivity.
Defined.

(** X11. The default viewport is the whole surface: for a state in RELATIVE
    mode with offset (0,0) and size (1,1), as the constructor builds it, and
    for every value of the anchor, enable draws the rectangle
    (0, 0, width, height) and isInside accepts exactly the pointers strictly
    within the surface. *)
Theorem default_viewport_is_whole_surface
  (this : Viewport.t) (renderer : WebGLRenderer) (mouse : Mouse) :
  let canvas := domElement renderer in
  let rectangle := _viewport (Viewport.enable this renderer) in
  Viewport.mode this == Viewport.RELATIVE ->
  Viewport.offset this = Vector2.mk 0 0 ->
  Viewport.size this = Vector2.mk 1 1 ->
  (Vector4.x rectangle == 0 /\ Vector4.y rectangle == 0 /\
   Vector4.z rectangle == width canvas /\ Vector4.w rectangle == height canvas) /\
  (Viewport.isInside this canvas mouse = true <->
   (0 < Vector2.x (position mouse) /\ Vector2.x (position mouse) < width canvas) /\
   (0 < Vector2.y (position mouse) /\ Vector2.y (position mouse) < height canvas)).
Proof.
  cbv zeta. intros E Ho Hs. apply strict_eq_true in E. split.
  - unfold Viewport.enable. rewrite E, Ho, Hs.
    repeat match goal with |- context [if ?c then _ else _] => destruct c end;
      cbn [setScissor setViewport _viewport Vector4.x Vector4.y Vector4.z Vector4.w
           Vector2.new Vector2.x Vector2.y default from_option id];
      repeat split; ring.
  - unfold Viewport.isInside. rewrite E, Ho, Hs.
    repeat match goal with |- context [if ?c then _ else _] => destruct c end;
      cbn [Vector2.new Vector2.x Vector2.y default from_option id];
      comparisons; split; intros [[? ?] [? ?]]; repeat split; lra.
Qed.

(** The hypotheses of X11 hold for the viewport the constructor builds
    without an argument. *)
Lemma default_viewport_is_whole_surface_witness :
  let renderer :=
    {| domElement := {| width := 800; height := 600 |};
       _viewport := Vector4.mk 0 0 0 1; _scissor := Vector4.mk 0 0 0 1 |} in
  let rectangle := _viewport (Viewport.enable (Viewport.new None) renderer) in
  (Vector4.x rectangle == 0 /\ Vector4.y rectangle == 0 /\
   Vector4.z rectangle == 800 /\ Vector4.w rectangle == 600) /\
  (Viewport.isInside (Viewport.new None) (domElement renderer)
     {| position := Vector2.mk 400 300 |} = true <->
   (0 < 400 /\ 400 < 800) /\ (0 < 300 /\ 300 < 600)).
Proof.
  apply (default_viewport_is_whole_surface (Viewport.new None)
           {| domElement := {| width := 800; height := 600 |};
              _viewport := Vector4.mk 0 0 0 1; _scissor := Vector4.mk 0 0 0 1 |}
           {| position := Vector2.mk 400 300 |});
    reflexivity.
Defined.

(** ** Further properties of the serialization *)

(** What fromJSON leaves in the receiver for a record written by toJSON. *)
Lemma fromJSON_toJSON (v w : Viewport.t) :
  Viewport.fromJSON (Viewport.toJSON v) w
  = (JS.Returned,
     Viewport.mk (Viewport.offset v) (Viewport.size v) (Viewport.mode v)
       (Viewport.anchor v) (Viewport.viewport w)).
Proof.
  unfold Viewport.fromJSON.
  destruct (toJSON_get v) as (-> & -> & -> & ->).
  unfold JS.seq, JS.on. rewrite !fromArray_toArray. reflexivity.
Qed.

(** toArray loses nothing of a vector. *)
Lemma toArray_injective (u v : Vector2.t) :
  Vector2.toArray u = Vector2.toArray v -> u = v.
Proof.
  destruct u as [ux uy], v as [vx vy]. unfold Vector2.toArray. cbn [Vector2.x Vector2.y].
  intros E. injection E as -> ->. reflexivity.
Qed.

(** X12. fromJSON on a record without a usable offset or size: when the
    property offset reads undefined the call throws and the receiver is as
    it was; when offset is an array of numbers and the property size reads
    undefined the call throws after the offset of the receiver was
    overwritten, the other fields being as they were. *)
Theorem fromJSON_throws_on_missing_arrays (data : gmap string JS.Value) (w : Viewport.t) :
  (JS.get data "offset" = JS.undefined ->
   Viewport.fromJSON data w = (JS.TypeError, w)) /\
  (forall (a b : Q) (rest : list JS.Value),
     JS.get data "offset" = JS.Array (JS.Number a :: JS.Number b :: rest) ->
     JS.get data "size" = JS.undefined ->
     Viewport.fromJSON data w
     = (JS.TypeError,
        Viewport.mk (Vector2.mk a b) (Viewport.size w) (Viewport.mode w)
          (Viewport.anchor w) (Viewport.viewport w))).
Proof.
  split.
  - intros Ho. unfold Viewport.fromJSON. rewrite Ho.
    destruct w as [o s m a box]. reflexivity.
  - intros a b rest Ho Hs. unfold Viewport.fromJSON. rewrite Ho, Hs. reflexivity.
Qed.

(** X13. fromJSON reads the properties offset, size, mode and anchor and
    nothing else of the record: on two records that hold the same values
    under these four names it ends the same way with the same receiver. *)
Theorem fromJSON_reads_four_properties
  (data data' : gmap string JS.Value) (w : Viewport.t) :
  Spec.same_properties data data' ->
  Viewport.fromJSON data w = Viewport.fromJSON data' w.
Proof.
  intros (Ho & Hs & Hm & Ha). unfold Viewport.fromJSON, JS.get.
  rewrite Ho, Hs, Hm, Ha. reflexivity.
Qed.

(** The hypothesis of X13 holds for a serialized record and the same record
    with a property viewport added. *)
Lemma fromJSON_reads_four_properties_witness :
  Viewport.fromJSON
    (<["viewport" := JS.Array [JS.Number 1; JS.Number 2; JS.Number 3; JS.Number 4]]>
       (Viewport.toJSON (Viewport.new (Some Viewport.ABSOLUTE))))
    (Viewport.new None)
  = Viewport.fromJSON (Viewport.toJSON (Viewport.new (Some Viewport.ABSOLUTE)))
      (Viewport.new None).
Proof.
  apply (fromJSON_reads_four_properties
           (<["viewport" := JS.Array [JS.Number 1; JS.Number 2; JS.Number 3; JS.Number 4]]>
              (Viewport.toJSON (Viewport.new (Some Viewport.ABSOLUTE))))
           (Viewport.toJSON (Viewport.new (Some Viewport.ABSOLUTE)))
           (Viewport.new None)).
  unfold Spec.same_properties. repeat split; vm_compute; reflexivity.
Defined.

(** X14. fromJSON stores what it reads without a check: for a record whose
    offset and size are arrays that start with two numbers and whose mode
    and anchor are numbers, the call returns and the receiver holds these
    numbers as they are, also a mode or an anchor outside the enumeration;
    further elements of the arrays are left out and the viewport field is
    as it was. *)
Theorem fromJSON_stores_what_it_reads
  (data : gmap string JS.Value) (w : Viewport.t)
  (a b c d m k : Q) (more_offset more_size : list JS.Value) :
  JS.get data "offset" = JS.Array (JS.Number a :: JS.Number b :: more_offset) ->
  JS.get data "size" = JS.Array (JS.Number c :: JS.Number d :: more_size) ->
  JS.get data "mode" = JS.Number m ->
  JS.get data "anchor" = JS.Number k ->
  Viewport.fromJSON data w
  = (JS.Returned,
     Viewport.mk (Vector2.mk a b) (Vector2.mk c d) m k (Viewport.viewport w)).
Proof.
  intros Ho Hs Hm Ha. unfold Viewport.fromJSON. rewrite Ho, Hs, Hm, Ha. reflexivity.
Qed.

(** The hypotheses of X14 hold for a record with arrays of three elements,
    mode 7 and anchor 0. *)
Lemma fromJSON_stores_what_it_reads_witness :
  Viewport.fromJSON
    (list_to_map
       [ ("offset", JS.Array [JS.Number 1; JS.Number 2; JS.Number 3]);
         ("size", JS.Array [JS.Number 4; JS.Number 5; JS.undefined]);
         ("mode", JS.Number 7);
         ("anchor", JS.Number 0) ])
    (Viewport.new None)
  = (JS.Returned,
     Viewport.mk (Vector2.mk 1 2) (Vector2.mk 4 5) 7 0
       (Viewport.viewport (Viewport.new None))).
Proof.
  apply (fromJSON_stores_what_it_reads
           (list_to_map
              [ ("offset", JS.Array [JS.Number 1; JS.Number 2; JS.Number 3]);
                ("size", JS.Array [JS.Number 4; JS.Number 5; JS.undefined]);
                ("mode", JS.Number 7);
                ("anchor", JS.Number 0) ])
           (Viewport.new None) 1 2 4 5 7 0 [JS.Number 3] [JS.undefined]);
    vm_compute; reflexivity.
Defined.

(** X15. toJSON loses the viewport field and nothing else: two states have
    the same serialized record exactly when they have the same offset, size,
    mode and anchor. *)
Theorem toJSON_injective_on_four_fields (u v : Viewport.t) :
  Viewport.toJSON u = Viewport.toJSON v <->
  Viewport.offset u = Viewport.offset v /\
  Viewport.size u = Viewport.size v /\
  Viewport.mode u = Viewport.mode v /\
  Viewport.anchor u = Viewport.anchor v.
Proof.
  split.
  - intros E.
    destruct (toJSON_get u) as (Uo & Us & Um & Ua).
    destruct (toJSON_get v) as (Vo & Vs & Vm & Va).
    rewrite E in Uo, Us, Um, Ua.
    rewrite Vo in Uo. rewrite Vs in Us. rewrite Vm in Um. rewrite Va in Ua.
    split; [| split; [| split]].
    + symmetry. apply toArray_injective. exact Uo.
    + symmetry. apply toArray_injective. exact Us.
    + injection Um as ->. reflexivity.
    + injection Ua as ->. reflexivity.
  - intros (Eo & Es & Em & Ea). unfold Viewport.toJSON.
    rewrite Eo, Es, Em, Ea. reflexivity.
Qed.

(** X16. A copy made through the serialized record behaves as the
    original: for every receiver w, after w.fromJSON(v.toJSON()) the methods
    isInside, getNormalized, enable and getAspectRatio give on w what they
    give on v, whatever the viewport fields of the two hold. *)
Theorem serialized_copy_behaves_the_same
  (v w : Viewport.t) (canvas : Canvas) (mouse : Mouse)
  (normalized : Vector2.t) (renderer : WebGLRenderer) :
  let copy := snd (Viewport.fromJSON (Viewport.toJSON v) w) in
  Viewport.isInside copy canvas mouse = Viewport.isInside v canvas mouse /\
  Viewport.getNormalized normalized copy canvas mouse
  = Viewport.getNormalized normalized v canvas mouse /\
  Viewport.enable copy renderer = Viewport.enable v renderer /\
  Viewport.getAspectRatio copy = Viewport.getAspectRatio v.
Proof.
  cbv zeta. rewrite fromJSON_toJSON. destruct v as [o s m a box]. repeat split.
Qed.

(** ** The methods in binary64 *)

Section BinaryArithmetic.

Local Open Scope float_scope.

(** NaN and the infinities are what is_finite rejects. *)
Lemma is_finite_false (q : float) :
  Binary64.not_finite (Prim2SF q) -> is_finite q = false.
Proof.
  unfold is_finite, is_nan, is_infinity.
  rewrite !FloatAxioms.eqb_spec, abs_spec.
  intros [-> | [[] ->]]; reflexivity.
Qed.

(** A number that [===] zero is one of the two zeros. *)
Lemma zero_datum (d : float) :
  Binary64.strict_eq d 0 = true -> exists sign : bool, Prim2SF d = S754_zero sign.
Proof.
  unfold Binary64.strict_eq. rewrite FloatAxioms.eqb_spec.
  destruct (Prim2SF d) as [sign | sign | | sign m e]; try discriminate.
  - intros _. exists sign. reflexivity.
  - destruct sign; discriminate.
  - destruct sign; discriminate.
Qed.

(** A quotient by zero is NaN or an infinity, whatever the dividend. *)
Lemma div_zero_not_finite (a d : float) :
  Binary64.strict_eq d 0 = true -> Binary64.not_finite (Prim2SF (a / d)).
Proof.
  intros Z. destruct (zero_datum d Z) as [sign E].
  rewrite div_spec, E. unfold SF64div, SFdiv, Binary64.not_finite.
  destruct (Prim2SF a); eauto.
Qed.

(** Doubling, adding 1 and subtracting 1 keep NaN and the infinities. *)
Lemma times_two_not_finite (q : float) :
  Binary64.not_finite (Prim2SF q) -> Binary64.not_finite (Prim2SF (q * 2)).
Proof.
  rewrite mul_spec. unfold Binary64.not_finite.
  intros [-> | [sign ->]]; [left | right; eexists]; reflexivity.
Qed.

Lemma plus_one_not_finite (q : float) :
  Binary64.not_finite (Prim2SF q) -> Binary64.not_finite (Prim2SF (q + 1)).
Proof.
  rewrite add_spec. unfold Binary64.not_finite.
  intros [-> | [sign ->]]; [left | right; eexists]; reflexivity.
Qed.

Lemma minus_one_not_finite (q : float) :
  Binary64.not_finite (Prim2SF q) -> Binary64.not_finite (Prim2SF (q - 1)).
Proof.
  rewrite sub_spec. unfold Binary64.not_finite.
  intros [-> | [sign ->]]; [left | right; eexists]; reflexivity.
Qed.

(** The two shapes of a component of getNormalized over a zero divisor. *)
Lemma component_plus_not_finite (a d : float) :
  Binary64.strict_eq d 0 = true -> is_finite (a / d * 2 + 1) = false.
Proof.
  intros Z. apply is_finite_false, plus_one_not_finite, times_two_not_finite,
    div_zero_not_finite, Z.
Qed.

Lemma component_minus_not_finite (a d : float) :
  Binary64.strict_eq d 0 = true -> is_finite (a / d * 2 - 1) = false.
Proof.
  intros Z. apply is_finite_false, minus_one_not_finite, times_two_not_finite,
    div_zero_not_finite, Z.
Qed.

(** X8. getNormalized has no guard against an empty viewport: in binary64,
    for every mode, anchor, surface and pointer, a component of the
    effective size that is zero makes the matching component of the result
    NaN or an infinity. *)
Theorem getNormalized_zero_size_not_finite
  (this : Binary64.Viewport) (canvas : Binary64.Canvas) (position : Binary64.Vector2) :
  let size := Binary64.effectiveSize this canvas in
  let normalized := Binary64.getNormalized this canvas position in
  (Binary64.strict_eq (Binary64.x size) 0 = true ->
   is_finite (Binary64.x normalized) = false) /\
  (Binary64.strict_eq (Binary64.y size) 0 = true ->
   is_finite (Binary64.y normalized) = false).
Proof.
  cbv zeta. unfold Binary64.effectiveSize, Binary64.getNormalized.
  destruct (Binary64.strict_eq (Binary64.mode this) Binary64.RELATIVE);
    repeat match goal with
           | |- context [if ?c then _ else _] => destruct c
           end;
    cbn [Binary64.x Binary64.y];
    split; intros Z;
    first [ apply component_plus_not_finite, Z
          | apply component_minus_not_finite, Z ].
Qed.



End BinaryArithmetic.
